(** * hyprwhspr: the D-Bus shortcut controller ([lib/src/global_shortcuts.py])

    A shallow embedding of [DictationService] and [GlobalShortcuts].

    Python objects live in explicit stores (service objects, thread objects
    and GLib main loops are referred to by their index in the store), method
    bodies are written in a state-and-exception monad, and the calls into
    [threading], [pydbus] and [GLib] take their outcome (returns or raises,
    and what the other threads do while the call blocks) as an argument. *)

From stdpp Require Import gmap strings list fin_maps.

Local Open Scope string_scope.

(** ** Values, exceptions, results *)

(** The Python values that the status mapping can hold. *)
Inductive pyval : Type :=
| VNone
| VBool (b : bool)
| VStr (s : string).

#[global] Instance pyval_eq_dec : EqDecision pyval.
Proof. solve_decision. Defined.

(** A handler is a zero-argument callable, known only by its identity.
    Functions, lambdas and bound methods are truthy in Python. *)
Definition Handler : Type := nat.

(** An instance of a subclass of [Exception], with the text that
    [f"{e}"] renders. *)
Record exn : Type := Exception { exn_msg : string }.

Inductive result (A : Type) : Type :=
| Return (a : A)
| Raise (e : exn).
Arguments Return {A} a.
Arguments Raise {A} e.

(** ** Objects *)

(** [class DictationService]: one attribute. *)
Record DictationService : Type := { handler : option Handler }.

(** What a [threading.Thread] was created to run. *)
Inductive target : Type :=
| target_dbus_loop_thread
| target_handler (h : Handler).

(** Where a started thread stands.  The first eight points are the
    statements of [_dbus_loop_thread]; [InHandler] is a callback thread
    inside the opaque handler. *)
Inductive pc : Type :=
| AtConnect                (* bus = SessionBus() *)
| AtService                (* self.dbus_service = DictationService(self.callback) *)
| AtPublish                (* bus.publish(name, (path, self.dbus_service)) *)
| AtLoopNew                (* self.dbus_loop = GLib.MainLoop() *)
| AtPrint                  (* print("D-Bus service started: ...") *)
| AtRun                    (* self.dbus_loop.run(), on entry *)
| InRun (l : nat)          (* blocked inside run() of loop l *)
| InExcept (e : exn)       (* the except clause, e caught *)
| InHandler (h : Handler).

Inductive thread_status : Type :=
| Unstarted
| Alive (p : pc)
| Finished.

Record Thread : Type := {
  thr_target : target;
  thr_daemon : bool;
  thr_status : thread_status
}.

(** [class GlobalShortcuts]: the attributes set by [__init__]. *)
Record GlobalShortcuts : Type := {
  primary_key : string;
  callback : option Handler;
  dbus_service : option nat;
  dbus_loop : option nat;
  listener_thread : option nat;
  is_running : bool
}.

(** The process: the controller, the object stores, the objects registered
    on the session bus, and what was printed. *)
Record World : Type := {
  self : GlobalShortcuts;
  services : list DictationService;
  threads : list Thread;
  loops : list bool;            (* GLib's is_running flag of each MainLoop *)
  bus_objects : list nat;
  stdout : list string
}.

(** ** Field updates *)

Definition set_primary_key (v : string) (g : GlobalShortcuts) : GlobalShortcuts :=
  {| primary_key := v; callback := callback g; dbus_service := dbus_service g;
     dbus_loop := dbus_loop g; listener_thread := listener_thread g;
     is_running := is_running g |}.

Definition set_callback_field (v : option Handler) (g : GlobalShortcuts) : GlobalShortcuts :=
  {| primary_key := primary_key g; callback := v; dbus_service := dbus_service g;
     dbus_loop := dbus_loop g; listener_thread := listener_thread g;
     is_running := is_running g |}.

Definition set_dbus_service (v : option nat) (g : GlobalShortcuts) : GlobalShortcuts :=
  {| primary_key := primary_key g; callback := callback g; dbus_service := v;
     dbus_loop := dbus_loop g; listener_thread := listener_thread g;
     is_running := is_running g |}.

Definition set_dbus_loop (v : option nat) (g : GlobalShortcuts) : GlobalShortcuts :=
  {| primary_key := primary_key g; callback := callback g; dbus_service := dbus_service g;
     dbus_loop := v; listener_thread := listener_thread g;
     is_running := is_running g |}.

Definition set_listener_thread (v : option nat) (g : GlobalShortcuts) : GlobalShortcuts :=
  {| primary_key := primary_key g; callback := callback g; dbus_service := dbus_service g;
     dbus_loop := dbus_loop g; listener_thread := v;
     is_running := is_running g |}.

Definition set_is_running (v : bool) (g : GlobalShortcuts) : GlobalShortcuts :=
  {| primary_key := primary_key g; callback := callback g; dbus_service := dbus_service g;
     dbus_loop := dbus_loop g; listener_thread := listener_thread g;
     is_running := v |}.

Definition with_self (f : GlobalShortcuts -> GlobalShortcuts) (w : World) : World :=
  {| self := f (self w); services := services w; threads := threads w;
     loops := loops w; bus_objects := bus_objects w; stdout := stdout w |}.

Definition with_services (f : list DictationService -> list DictationService)
    (w : World) : World :=
  {| self := self w; services := f (services w); threads := threads w;
     loops := loops w; bus_objects := bus_objects w; stdout := stdout w |}.

Definition with_threads (f : list Thread -> list Thread) (w : World) : World :=
  {| self := self w; services := services w; threads := f (threads w);
     loops := loops w; bus_objects := bus_objects w; stdout := stdout w |}.

Definition with_loops (f : list bool -> list bool) (w : World) : World :=
  {| self := self w; services := services w; threads := threads w;
     loops := f (loops w); bus_objects := bus_objects w; stdout := stdout w |}.

Definition with_bus_objects (f : list nat -> list nat) (w : World) : World :=
  {| self := self w; services := services w; threads := threads w;
     loops := loops w; bus_objects := f (bus_objects w); stdout := stdout w |}.

Definition with_stdout (f : list string -> list string) (w : World) : World :=
  {| self := self w; services := services w; threads := threads w;
     loops := loops w; bus_objects := bus_objects w; stdout := f (stdout w) |}.

(** ** The monad of method bodies

    A computation transforms the world and either returns a value or
    raises; what it changed before raising stays changed. *)

Definition M (A : Type) : Type := World -> result A * World.

#[global] Instance M_ret : MRet M := fun A a w => (Return a, w).

#[global] Instance M_bind : MBind M := fun A B k m w =>
  match m w with
  | (Return a, w') => k a w'
  | (Raise e, w') => (Raise e, w')
  end.

Definition raise {A : Type} (e : exn) : M A := fun w => (Raise e, w).

(** [try: body except Exception as e: handler e] *)
Definition try_except {A : Type} (body : M A) (except : exn -> M A) : M A :=
  fun w =>
    match body w with
    | (Return a, w') => (Return a, w')
    | (Raise e, w') => except e w'
    end.

Definition gets {A : Type} (f : World -> A) : M A := fun w => (Return (f w), w).

Definition modify (f : World -> World) : M unit := fun w => (Return tt, f w).

(** An external call that changes nothing here: it returns or it raises. *)
Definition external (o : option exn) : M unit :=
  match o with
  | None => mret tt
  | Some e => raise e
  end.

Definition print (s : string) : M unit :=
  modify (with_stdout (fun out => (out ++ [s])%list)).

Definition assign (f : GlobalShortcuts -> GlobalShortcuts) : M unit :=
  modify (with_self f).

(** ** The library objects the code relies on *)

Definition entry_pc (tg : target) : pc :=
  match tg with
  | target_dbus_loop_thread => AtConnect
  | target_handler h => InHandler h
  end.

(** [threading.Thread(target=tg, daemon=True)]: a new, unstarted thread
    object; the result is its reference. *)
Definition Thread_new (tg : target) (o : option exn) : M nat :=
  external o;;
  t ← gets (fun w => length (threads w));
  modify (with_threads (fun ts =>
    (ts ++ [{| thr_target := tg; thr_daemon := true; thr_status := Unstarted |}])%list));;
  mret t.

Definition set_status (t : nat) (st : thread_status) : World -> World :=
  with_threads (fun ts =>
    match ts !! t with
    | Some th =>
        <[t := {| thr_target := thr_target th; thr_daemon := thr_daemon th;
                  thr_status := st |}]> ts
    | None => ts
    end).

(** [t.is_alive()] *)
Definition is_alive (w : World) (t : nat) : bool :=
  match threads w !! t with
  | Some th => match thr_status th with Alive _ => true | _ => false end
  | None => false
  end.

(** [GLib.MainLoop()]: a new loop, not running. *)
Definition MainLoop_new : M nat :=
  l ← gets (fun w => length (loops w));
  modify (with_loops (fun ls => (ls ++ [false])%list));;
  mret l.

(** [loop.quit()]: clears the loop's flag, so that a pending [run()]
    returns. *)
Definition MainLoop_quit (l : nat) (o : option exn) : M unit :=
  external o;;
  modify (with_loops (fun ls => <[l := false]> ls)).

(** [DictationService(handler)]: a new service object. *)
Definition DictationService_new (h : option Handler) : M nat :=
  a ← gets (fun w => length (services w));
  modify (with_services (fun ss => (ss ++ [{| handler := h |}])%list));;
  mret a.

(** [bus.publish(name, (path, obj))]: registers the object on the bus. *)
Definition bus_publish (obj : option nat) (o : option exn) : M unit :=
  external o;;
  match obj with
  | Some a => modify (with_bus_objects (fun bs => (bs ++ [a])%list))
  | None => raise (Exception "cannot publish None")
  end.

(** How creating and starting a thread turns out. *)
Record spawn_env : Type := {
  thread_ctor : option exn;     (* threading.Thread(...) raises *)
  thread_start : option exn     (* .start() raises *)
}.

Definition spawn_ok : spawn_env := {| thread_ctor := None; thread_start := None |}.

(** ** DictationService.Trigger *)

(** [t.start()] without what runs meanwhile: the thread becomes alive at the
    first statement of its target. *)
Definition Thread_start_now (t : nat) (o : option exn) : M unit :=
  external o;;
  ts ← gets threads;
  match ts !! t with
  | Some th => modify (set_status t (Alive (entry_pc (thr_target th))))
  | None => mret tt
  end.

Definition Trigger (this : DictationService) (env : spawn_env) : M unit :=
  print "D-Bus trigger received";;
  match handler this with
  | Some h =>
      callback_thread ← Thread_new (target_handler h) (thread_ctor env);
      Thread_start_now callback_thread (thread_start env)
  | None => mret tt
  end.

(** ** The other threads

    A background step is one statement of a started thread, or a [Trigger]
    call that some process sends to an object registered on the bus. *)
Inductive bg_label : Type :=
| ThreadStep (t : nat) (o : option exn)
| BusTrigger (a : nat) (env : spawn_env).

(** One statement of [_dbus_loop_thread] (or the end of a handler) at
    point [p]; the result is the next point, [None] when the target
    returns.  [traceback.print_exc()] writes to stderr, which is not kept. *)
Definition _dbus_loop_thread (p : pc) (o : option exn) : M (option pc) :=
  match p with
  | AtConnect =>
      external o;;
      mret (Some AtService)
  | AtService =>
      cb ← gets (fun w => callback (self w));
      a ← DictationService_new cb;
      assign (set_dbus_service (Some a));;
      mret (Some AtPublish)
  | AtPublish =>
      obj ← gets (fun w => dbus_service (self w));
      bus_publish obj o;;
      mret (Some AtLoopNew)
  | AtLoopNew =>
      l ← MainLoop_new;
      assign (set_dbus_loop (Some l));;
      mret (Some AtPrint)
  | AtPrint =>
      print "D-Bus service started: com.hyprwhspr.Dictation at /com/hyprwhspr/Dictation";;
      mret (Some AtRun)
  | AtRun =>
      external o;;
      lp ← gets (fun w => dbus_loop (self w));
      match lp with
      | Some l =>
          modify (with_loops (fun ls => <[l := true]> ls));;
          mret (Some (InRun l))
      | None => raise (Exception "'NoneType' object has no attribute 'run'")
      end
  | InRun l =>
      ls ← gets loops;
      match ls !! l with
      | Some true => external o;; mret (Some (InRun l))
      | _ => mret None
      end
  | InExcept e =>
      print ("Error in D-Bus loop: " +:+ exn_msg e);;
      assign (set_is_running false);;
      mret None
  | InHandler h => mret None
  end.

(** The [try] of [_dbus_loop_thread] covers every statement but those of
    its own except clause. *)
Definition in_try (p : pc) : bool :=
  match p with
  | InExcept _ | InHandler _ => false
  | _ => true
  end.

Definition thread_step (t : nat) (o : option exn) (w : World) : World :=
  match threads w !! t with
  | Some th =>
      match thr_status th with
      | Alive p =>
          match _dbus_loop_thread p o w with
          | (Return (Some p'), w') => set_status t (Alive p') w'
          | (Return None, w') => set_status t Finished w'
          | (Raise e, w') =>
              if in_try p then set_status t (Alive (InExcept e)) w'
              else set_status t Finished w'
          end
      | _ => w
      end
  | None => w
  end.

(** A bus call reaches only a registered object; an exception out of
    [Trigger] goes back to the remote caller, not into this process. *)
Definition bus_trigger (a : nat) (env : spawn_env) (w : World) : World :=
  if bool_decide (a ∈ bus_objects w) then
    match services w !! a with
    | Some this => snd (Trigger this env w)
    | None => w
    end
  else w.

Definition bg_step (l : bg_label) (w : World) : World :=
  match l with
  | ThreadStep t o => thread_step t o w
  | BusTrigger a env => bus_trigger a env w
  end.

(** What the other threads do while the calling thread is blocked. *)
Definition background (sched : list bg_label) : M unit :=
  modify (fun w => foldl (fun w l => bg_step l w) w sched).

(** [t.start()]: returns once the new thread runs; other threads, the
    new one included, may have advanced by then. *)
Definition Thread_start (t : nat) (o : option exn) (sched : list bg_label) : M unit :=
  Thread_start_now t o;;
  background sched.

(** [t.join(timeout=1.0)]: returns when the thread has ended or the time is
    up, whichever comes first. *)
Definition Thread_join (t : nat) (o : option exn) (sched : list bg_label) : M unit :=
  external o;;
  background sched.

(** ** GlobalShortcuts *)

(** [__init__(primary_key, callback, device_path)]; the device path is
    not used. *)
Definition __init__ (primary_key : string) (callback : option Handler) : World :=
  {| self := {| primary_key := primary_key; callback := callback;
                dbus_service := None; dbus_loop := None;
                listener_thread := None; is_running := false |};
     services := []; threads := []; loops := []; bus_objects := [];
     stdout := ["Global shortcuts initialized with key: " +:+ primary_key;
                "Using D-Bus for shortcut handling"] |}.

(** What [start] meets: how the thread creation turns out, and what the
    other threads do until [Thread.start()] is back. *)
Record start_env : Type := {
  start_spawn : spawn_env;
  during_start : list bg_label
}.

(** [self.listener_thread = threading.Thread(target=self._dbus_loop_thread,
    daemon=True)] *)
Definition start_create (env : start_env) : M unit :=
  t ← Thread_new target_dbus_loop_thread (thread_ctor (start_spawn env));
  assign (set_listener_thread (Some t)).

(** [self.listener_thread.start()] *)
Definition start_launch (env : start_env) : M unit :=
  lt ← gets (fun w => listener_thread (self w));
  match lt with
  | Some t => Thread_start t (thread_start (start_spawn env)) (during_start env)
  | None => raise (Exception "'NoneType' object has no attribute 'start'")
  end.

(** [self.is_running = True] and what follows it in the [try]. *)
Definition start_commit : M bool :=
  assign (set_is_running true);;
  pk ← gets (fun w => primary_key (self w));
  print ("Global shortcuts started, listening for " +:+ pk +:+ " via D-Bus");;
  mret true.

Definition start (env : start_env) : M bool :=
  running ← gets (fun w => is_running (self w));
  if (running : bool) then mret true
  else
    try_except
      (start_create env;;
       start_launch env;;
       start_commit)
      (fun e =>
         print ("Failed to start global shortcuts: " +:+ exn_msg e);;
         mret false).

(** What [stop] meets: whether [quit()] and [join()] raise, and what the
    other threads do during the join. *)
Record stop_env : Type := {
  loop_quit : option exn;
  thread_join : option exn;
  during_join : list bg_label
}.

Definition stop (env : stop_env) : M unit :=
  running ← gets (fun w => is_running (self w));
  if negb (running : bool) then mret tt
  else
    try_except
      (lp ← gets (fun w => dbus_loop (self w));
       (match lp with
        | Some l => MainLoop_quit l (loop_quit env)
        | None => mret tt
        end : M unit);;
       lt ← gets (fun w => listener_thread (self w));
       (match lt with
        | Some t =>
            alive ← gets (fun w => is_alive w t);
            if (alive : bool) then Thread_join t (thread_join env) (during_join env)
            else mret tt
        | None => mret tt
        end : M unit);;
       assign (set_is_running false);;
       print "Global shortcuts stopped")
      (fun e => print ("Error stopping global shortcuts: " +:+ exn_msg e)).

(** [self.is_running and self.listener_thread and
    self.listener_thread.is_alive()]: [and] yields its first falsy operand,
    else its last. *)
Definition is_active (w : World) : pyval :=
  if negb (is_running (self w)) then VBool false
  else
    match listener_thread (self w) with
    | None => VNone
    | Some t => VBool (is_alive w t)
    end.

(** [if self.dbus_service: self.dbus_service.handler = callback] *)
Definition set_callback_propagate (callback : option Handler) : M unit :=
  svc ← gets (fun w => dbus_service (self w));
  match svc with
  | Some a =>
      modify (with_services (fun ss =>
        match ss !! a with
        | Some _ => <[a := {| handler := callback |}]> ss
        | None => ss
        end))
  | None => mret tt
  end.

Definition set_callback (callback : option Handler) : M unit :=
  assign (set_callback_field callback);;
  set_callback_propagate callback.

Definition update_shortcut (new_key : string) : M bool :=
  assign (set_primary_key new_key);;
  print ("Updated shortcut to: " +:+ new_key);;
  print "Remember to update your Hyprland bindings.conf accordingly";;
  mret true.

Definition get_status (w : World) : gmap string pyval :=
  <["is_running" := VBool (is_running (self w))]>
  (<["is_active" := is_active w]>
  (<["primary_key" := VStr (primary_key (self w))]>
  (<["method" := VStr "dbus"]> ∅))).

(** [__del__]: [stop()] with every exception swallowed. *)
Definition __del__ (env : stop_env) : M unit :=
  try_except (stop env) (fun _ => mret tt).

(** ** Runs of the process

    The hosting application calls the controller's methods from one thread;
    between two calls the other threads take steps.  A step is a whole
    method call (with what the other threads do inside its blocking
    [Thread.start()] and [join()]), one statement of a started thread, or
    one [Trigger] call from the bus. *)
Inductive call : Type :=
| call_start (env : start_env)
| call_stop (env : stop_env)
| call_set_callback (callback : option Handler)
| call_update_shortcut (new_key : string)
| call_background (l : bg_label).

Definition exec (c : call) (w : World) : World :=
  match c with
  | call_start env => snd (start env w)
  | call_stop env => snd (stop env w)
  | call_set_callback cb => snd (set_callback cb w)
  | call_update_shortcut k => snd (update_shortcut k w)
  | call_background l => bg_step l w
  end.

Inductive reachable (primary_key : string) (callback : option Handler) : World -> Prop :=
| reachable_init : reachable primary_key callback (__init__ primary_key callback)
| reachable_exec c w :
    reachable primary_key callback w ->
    reachable primary_key callback (exec c w).

Definition run (cs : list call) (w : World) : World :=
  foldl (fun w c => exec c w) w cs.

(** ** Sample runs *)

Definition RuntimeError (msg : string) : exn := Exception msg.

(** The listener thread gets as far as blocking in [run()]. *)
Definition listener_comes_up (t : nat) : list bg_label :=
  [ThreadStep t None; ThreadStep t None; ThreadStep t None;
   ThreadStep t None; ThreadStep t None; ThreadStep t None].

Definition fresh : World := __init__ "<f12>" (Some 7).

Definition started : World :=
  run [call_start {| start_spawn := spawn_ok; during_start := [] |}] fresh.

Definition serving : World :=
  run (call_background <$> listener_comes_up 0) started.

(** ** Vocabulary of the statements *)

(** The thread object that one successful [Trigger] adds. *)
Definition callback_thread_of (h : Handler) : Thread :=
  {| thr_target := target_handler h; thr_daemon := true;
     thr_status := Alive (InHandler h) |}.


(** Creating or starting the thread raises. *)
Definition spawn_fails (env : spawn_env) : bool :=
  match thread_ctor env, thread_start env with
  | None, None => false
  | _, _ => true
  end.

(** The try body of [start] up to and including [Thread.start()]. *)
Definition start_until_launched (env : start_env) : M unit :=
  start_create env;; start_launch env.

(** [stop] calls [quit()] and it raises. *)
Definition quit_raises (env : stop_env) (w : World) : bool :=
  match dbus_loop (self w), loop_quit env with
  | Some _, Some _ => true
  | _, _ => false
  end.

(** [stop] calls [join()] and it raises. *)
Definition join_raises (env : stop_env) (w : World) : bool :=
  match listener_thread (self w), thread_join env with
  | Some t, Some _ => is_alive w t
  | _, _ => false
  end.

(** [set_callback] with the other threads running between its two
    statements. *)
Definition set_callback_racing (callback : option Handler) (sched : list bg_label)
    : M unit :=
  assign (set_callback_field callback);;
  background sched;;
  set_callback_propagate callback.

(** The published service, when the controller has one, holds the
    controller's handler. *)
Definition service_consistent (w : World) : Prop :=
  forall a, dbus_service (self w) = Some a ->
    exists this, services w !! a = Some this /\ handler this = callback (self w).

(** The controller's service reference points into the store. *)
Definition service_valid (w : World) : Prop :=
  forall a, dbus_service (self w) = Some a -> is_Some (services w !! a).

(** A set running flag comes with a thread object. *)
Definition thread_known (w : World) : Prop :=
  is_running (self w) = true -> is_Some (listener_thread (self w)).

(** What every background step guarantees: it does not touch the label, the
    handler or the thread reference, it never sets the running flag, and it
    keeps the service consistent. *)
Record rely (w w' : World) : Prop := {
  rely_primary_key : primary_key (self w') = primary_key (self w);
  rely_callback : callback (self w') = callback (self w);
  rely_listener_thread : listener_thread (self w') = listener_thread (self w);
  rely_is_running : is_running (self w') = true -> is_running (self w) = true;
  rely_valid : service_valid w -> service_valid w';
  rely_service : service_consistent w -> service_consistent w'
}.

(** Every thread object is a daemon thread. *)
Definition all_daemon (w : World) : Prop :=
  Forall (fun th => thr_daemon th = true) (threads w).

(** The thread object [th] with another status. *)
Definition at_status (th : Thread) (st : thread_status) : Thread :=
  {| thr_target := thr_target th; thr_daemon := thr_daemon th; thr_status := st |}.

(** How the thread store may change: a thread object stays where it is and
    only its status moves; new objects are daemon threads. *)
Definition threads_evolve (w w' : World) : Prop :=
  (forall t th, threads w !! t = Some th ->
     exists st, threads w' !! t = Some (at_status th st)) /\
  (all_daemon w -> all_daemon w').

(** The controller's thread reference points at a thread object made to run
    [_dbus_loop_thread]. *)
Definition listener_known (w : World) : Prop :=
  forall t, listener_thread (self w) = Some t ->
    exists th, threads w !! t = Some th /\
               thr_target th = target_dbus_loop_thread.

(** * Properties *)

(** ** Proof steps that recur *)

Ltac unfold_monad :=
  unfold try_except, Thread_start, Thread_join, Thread_start_now, Thread_new,
    MainLoop_quit, MainLoop_new, DictationService_new, bus_publish, background,
    print, assign, gets, modify, external, raise, mbind, M_bind, mret, M_ret.

(** ** Object stores: the last object allocated *)

Lemma lookup_snoc {A : Type} (l : list A) (x : A) :
  (l ++ [x])%list !! length l = Some x.
Proof. by apply list_lookup_middle. Qed.

Lemma insert_snoc {A : Type} (l : list A) (x y : A) :
  <[length l := y]> (l ++ [x])%list = (l ++ [y])%list.
Proof. rewrite insert_app_r_alt by lia. by rewrite Nat.sub_diag. Qed.

(** ** Reading the status *)

Lemma get_status_lookup_is_running w :
  get_status w !! "is_running" = Some (VBool (is_running (self w))).
Proof. unfold get_status. by simplify_map_eq. Qed.

Lemma get_status_lookup_is_active w :
  get_status w !! "is_active" = Some (is_active w).
Proof. unfold get_status. by simplify_map_eq. Qed.

Lemma get_status_lookup_primary_key w :
  get_status w !! "primary_key" = Some (VStr (primary_key (self w))).
Proof. unfold get_status. by simplify_map_eq. Qed.



(** The value of the [and] chain: a boolean, except for a running flag
    without a thread object, where it is [None]. *)
Lemma is_active_cases w :
  (exists b, is_active w = VBool b) \/
  (is_active w = VNone /\ is_running (self w) = true /\
   listener_thread (self w) = None).
Proof.
  unfold is_active.
  destruct (is_running (self w)); simpl; [| left; by eexists].
  destruct (listener_thread (self w)); [left; by eexists | by right].
Qed.



(** C8: [is_active()] is [True] exactly when the running flag is set and
    the listener thread object exists and reports itself alive; with the
    flag cleared it is [False]. *)
Theorem is_active_iff w :
  (is_active w = VBool true <->
   is_running (self w) = true /\
   exists t, listener_thread (self w) = Some t /\ is_alive w t = true) /\
  (is_running (self w) = false -> is_active w = VBool false).
Proof.
  unfold is_active. split.
  - destruct (is_running (self w)); simpl.
    + destruct (listener_thread (self w)) as [t|].
      * split.
        -- intros [= Ha]. split; [done | by exists t].
        -- intros [_ (t' & [= <-] & Ha)]. by rewrite Ha.
      * split; [done | by intros [_ (t' & [=] & _)]].
    + split; [done | by intros [[=] _]].
  - by intros ->.
Qed.

Lemma is_active_iff_witness :
  is_running (self fresh) = false /\ is_active fresh = VBool false.
Proof.
  split; [reflexivity |].
  apply (proj2 (is_active_iff fresh)). reflexivity.
Defined.

(** C9: [update_shortcut] returns [True] for every label and every
    state, stores the label (so the status shows it), and leaves the
    handler, the running flag, the thread, the loop, the service and every
    object store as they were. *)
Theorem update_shortcut_only_label new_key w :
  fst (update_shortcut new_key w) = Return true /\
  let w' := snd (update_shortcut new_key w) in
  primary_key (self w') = new_key /\
  get_status w' !! "primary_key" = Some (VStr new_key) /\
  callback (self w') = callback (self w) /\
  is_running (self w') = is_running (self w) /\
  listener_thread (self w') = listener_thread (self w) /\
  dbus_loop (self w') = dbus_loop (self w) /\
  dbus_service (self w') = dbus_service (self w) /\
  services w' = services w /\
  threads w' = threads w /\
  loops w' = loops w /\
  bus_objects w' = bus_objects w.
Proof.
  split; [reflexivity |].
  cbn zeta. rewrite get_status_lookup_primary_key.
  repeat split; reflexivity.
Qed.

Lemma start_running_noop env w :
  is_running (self w) = true ->
  start env w = (Return true, w).
Proof.
  intros Hrun. unfold start, gets, mbind, M_bind. by rewrite Hrun.
Qed.

(** ** Trigger *)

(** C6: with no handler, [Trigger] returns without raising, prints its
    one line and changes nothing else: no thread object is created and
    the controller and the stores stay as they were. *)
Theorem Trigger_without_handler this env w :
  handler this = None ->
  Trigger this env w
  = (Return tt, with_stdout (fun out => (out ++ ["D-Bus trigger received"])%list) w) /\
  let w' := snd (Trigger this env w) in
  self w' = self w /\ services w' = services w /\ threads w' = threads w /\
  loops w' = loops w /\ bus_objects w' = bus_objects w.
Proof.
  intros Hnone. unfold Trigger. rewrite Hnone. by repeat split.
Qed.

Lemma Trigger_without_handler_witness :
  handler {| handler := None |} = None /\
  Trigger {| handler := None |} spawn_ok serving
  = (Return tt,
     with_stdout (fun out => (out ++ ["D-Bus trigger received"])%list) serving).
Proof.
  split; [reflexivity |].
  apply (Trigger_without_handler {| handler := None |} spawn_ok serving).
  reflexivity.
Defined.

Lemma Trigger_spawned this h w :
  handler this = Some h ->
  Trigger this spawn_ok w
  = (Return tt,
     with_threads (fun ts => (ts ++ [callback_thread_of h])%list)
       (with_stdout (fun out => (out ++ ["D-Bus trigger received"])%list) w)).
Proof.
  intros Hh. unfold Trigger. rewrite Hh.
  unfold Thread_new, Thread_start_now, print, gets, modify, external,
    spawn_ok, mbind, M_bind, mret, M_ret. simpl.
  rewrite lookup_snoc. unfold set_status, with_threads. simpl.
  by rewrite lookup_snoc, insert_snoc.
Qed.





(** ** start *)

Lemma start_create_flag env w :
  is_running (self (snd (start_create env w))) = is_running (self w).
Proof.
  unfold start_create. unfold_monad.
  by destruct (thread_ctor (start_spawn env)).
Qed.

Lemma start_result env w :
  is_running (self w) = false ->
  fst (start env w) = Return (negb (spawn_fails (start_spawn env))) /\
  is_running (self (snd (start env w))) = negb (spawn_fails (start_spawn env)).
Proof.
  intros Hrun. unfold start, start_create, start_launch, start_commit, spawn_fails.
  unfold_monad. rewrite Hrun.
  destruct (thread_ctor (start_spawn env)); simpl; [done |].
  destruct (thread_start (start_spawn env)); simpl; [done |].
  rewrite lookup_snoc. done.
Qed.

Lemma start_without_schedule env w :
  is_running (self w) = false ->
  spawn_fails (start_spawn env) = false ->
  during_start env = [] ->
  threads (snd (start env w))
  = (threads w ++ [{| thr_target := target_dbus_loop_thread; thr_daemon := true;
                      thr_status := Alive AtConnect |}])%list /\
  listener_thread (self (snd (start env w))) = Some (length (threads w)) /\
  bus_objects (snd (start env w)) = bus_objects w /\
  services (snd (start env w)) = services w.
Proof.
  intros Hrun Hok Hsched.
  unfold start, start_create, start_launch, start_commit, spawn_fails in *.
  unfold_monad. rewrite Hrun, Hsched.
  destruct (thread_ctor (start_spawn env)); [done |].
  destruct (thread_start (start_spawn env)); [done |]. simpl.
  rewrite lookup_snoc. simpl. unfold set_status. simpl.
  by rewrite lookup_snoc, insert_snoc.
Qed.

(** C7: [start] on a running controller returns [True] and leaves the whole
    process as it was: no thread object is created, nothing is published,
    nothing is printed.  In particular a second [start] right after a
    successful one does nothing. *)
Theorem start_idempotent env w :
  is_running (self w) = true ->
  start env w = (Return true, w) /\
  threads (snd (start env w)) = threads w /\
  bus_objects (snd (start env w)) = bus_objects w /\
  forall env' w0,
    is_running (self w0) = false ->
    spawn_fails (start_spawn env') = false ->
    start env (snd (start env' w0)) = (Return true, snd (start env' w0)).
Proof.
  intros Hrun. rewrite start_running_noop by done.
  repeat split. intros env' w0 Hstopped Hok.
  apply start_running_noop.
  rewrite (proj2 (start_result env' w0 Hstopped)). by rewrite Hok.
Qed.

Lemma start_idempotent_witness :
  is_running (self started) = true /\
  start {| start_spawn := spawn_ok; during_start := [] |} started
  = (Return true, started).
Proof.
  split; [reflexivity |].
  apply (proj1 (start_idempotent
                  {| start_spawn := spawn_ok; during_start := [] |} started
                  eq_refl)).
Defined.

(** C2, as the code has it: on a controller that is not running, [start]
    creates and starts the thread while the flag is still false and sets
    the flag afterwards; it returns [False] exactly when creating or starting
    the thread raises, and then the flag stays false; otherwise it returns
    [True] with the flag set, whatever the other threads did meanwhile;
    and when they did nothing, the new thread is still before its bus
    connection and nothing has been published. *)
Theorem start_spawns_then_sets_flag env w :
  is_running (self w) = false ->
  is_running (self (snd (start_create env w))) = false /\
  fst (start env w) = Return (negb (spawn_fails (start_spawn env))) /\
  is_running (self (snd (start env w))) = negb (spawn_fails (start_spawn env)) /\
  (spawn_fails (start_spawn env) = false ->
   during_start env = [] ->
   threads (snd (start env w))
   = (threads w ++ [{| thr_target := target_dbus_loop_thread; thr_daemon := true;
                       thr_status := Alive AtConnect |}])%list /\
   listener_thread (self (snd (start env w))) = Some (length (threads w)) /\
   bus_objects (snd (start env w)) = bus_objects w /\
   services (snd (start env w)) = services w).
Proof.
  intros Hrun.
  split; [by rewrite start_create_flag |].
  split; [by apply start_result |].
  split; [by apply start_result |].
  intros Hok Hsched. by apply start_without_schedule.
Qed.

Lemma start_spawns_then_sets_flag_witness :
  is_running (self fresh) = false /\
  fst (start {| start_spawn := spawn_ok; during_start := [] |} fresh) = Return true.
Proof.
  split; [reflexivity |].
  apply (start_spawns_then_sets_flag
           {| start_spawn := spawn_ok; during_start := [] |} fresh).
  reflexivity.
Defined.

(** C2 as stated fails: on a fresh controller [start] succeeds, yet the flag
    is false in the state in which [Thread.start()] is called, and still
    false once the listener thread is alive. *)
Lemma start_flag_false_when_thread_spawned :
  let env := {| start_spawn := spawn_ok; during_start := [] |} in
  let at_spawn := snd (start_create env fresh) in
  let spawned := snd (start_until_launched env fresh) in
  is_running (self fresh) = false /\
  fst (start env fresh) = Return true /\
  is_running (self at_spawn) <> true /\
  is_alive spawned 0 = true /\
  listener_thread (self spawned) = Some 0 /\
  is_running (self spawned) <> true.
Proof. vm_compute. by repeat split. Qed.

(** What the order costs: a listener that fails while [Thread.start()] is
    still returning clears the flag first, and [start] then sets it. *)
Example start_sets_flag_after_listener_failed :
  let env := {| start_spawn := spawn_ok;
                during_start := [ThreadStep 0 (Some (RuntimeError "no session bus"));
                                 ThreadStep 0 None] |} in
  fst (start env fresh) = Return true /\
  is_running (self (snd (start env fresh))) = true /\
  is_alive (snd (start env fresh)) 0 = false /\
  is_active (snd (start env fresh)) = VBool false.
Proof. vm_compute. by repeat split. Qed.

(** ** stop *)




(** [__del__] swallows whatever [stop] could raise, which is nothing. *)
Lemma del_never_raises env w : fst (__del__ env w) = Return tt.
Proof.
  unfold __del__, try_except.
  destruct (stop env w) as [[[]|e] w'] eqn:Hstop; [done |].
  reflexivity.
Qed.

(** ** What the other threads may do to the controller *)

Lemma rely_refl w : rely w w.
Proof. by split. Qed.

Lemma rely_trans w1 w2 w3 : rely w1 w2 -> rely w2 w3 -> rely w1 w3.
Proof.
  intros [] []. split; try congruence; auto.
Qed.

(** Only [self] and [services] matter. *)
Lemma rely_same_view w w' :
  self w' = self w -> services w' = services w -> rely w w'.
Proof.
  intros Hs Hv. split; try (by rewrite Hs).
  - unfold service_valid. by rewrite Hs, Hv.
  - unfold service_consistent. by rewrite Hs, Hv.
Qed.

Lemma rely_dbus_loop_thread p o w :
  rely w (snd (_dbus_loop_thread p o w)).
Proof.
  destruct p; simpl; unfold_monad; simpl.
  - (* AtConnect *) destruct o; apply rely_refl.
  - (* AtService *)
    split; try done.
    + intros _ a [= <-]. simpl. rewrite lookup_snoc. by eexists.
    + intros _ a [= <-]. simpl.
      eexists. split; [apply lookup_snoc | done].
  - (* AtPublish *)
    destruct o; [apply rely_refl |].
    destruct (dbus_service (self w)); by apply rely_same_view.
  - (* AtLoopNew *) by split.
  - (* AtPrint *) by apply rely_same_view.
  - (* AtRun *)
    destruct o; [apply rely_refl |].
    destruct (dbus_loop (self w)); by apply rely_same_view.
  - (* InRun *)
    destruct (loops w !! l) as [[|]|]; try apply rely_refl.
    destruct o; apply rely_refl.
  - (* InExcept *) by split.
  - (* InHandler *) apply rely_refl.
Qed.

Lemma rely_set_status t st w : rely w (set_status t st w).
Proof. by apply rely_same_view. Qed.

Lemma rely_thread_step t o w : rely w (thread_step t o w).
Proof.
  unfold thread_step.
  destruct (threads w !! t) as [th|]; [| apply rely_refl].
  destruct (thr_status th) as [|p|]; try apply rely_refl.
  pose proof (rely_dbus_loop_thread p o w) as Hr.
  destruct (_dbus_loop_thread p o w) as [[[p'|]|e] w']; simpl in Hr;
    try destruct (in_try p);
    (eapply rely_trans; [exact Hr | apply rely_set_status]).
Qed.

Lemma Trigger_view this env w :
  self (snd (Trigger this env w)) = self w /\
  services (snd (Trigger this env w)) = services w.
Proof.
  unfold Trigger. unfold_monad. simpl.
  destruct (handler this); [| done].
  destruct (thread_ctor env); [done |]. simpl.
  destruct (thread_start env); [done |]. simpl.
  by rewrite lookup_snoc.
Qed.

Lemma rely_bus_trigger a env w : rely w (bus_trigger a env w).
Proof.
  unfold bus_trigger. case_bool_decide; [| apply rely_refl].
  destruct (services w !! a) as [this|]; [| apply rely_refl].
  apply rely_same_view; apply Trigger_view.
Qed.

Lemma rely_bg_step l w : rely w (bg_step l w).
Proof. destruct l; [apply rely_thread_step | apply rely_bus_trigger]. Qed.

Lemma rely_schedule sched w :
  rely w (foldl (fun w l => bg_step l w) w sched).
Proof.
  revert w. induction sched as [|l sched IH]; intros w; simpl.
  - apply rely_refl.
  - eapply rely_trans; [apply rely_bg_step | apply IH].
Qed.

(** ** What each method keeps *)

Ltac name_schedule Hr wb :=
  match goal with
  | |- context [foldl ?f ?x ?s] =>
      pose proof (rely_schedule s x) as Hr;
      change (foldl f x s) with (foldl (fun w l => bg_step l w) x s) in *;
      set (wb := foldl (fun w l => bg_step l w) x s) in *;
      destruct Hr
  end.

Lemma start_keeps env w :
  let w' := snd (start env w) in
  primary_key (self w') = primary_key (self w) /\
  callback (self w') = callback (self w) /\
  (service_consistent w -> service_consistent w') /\
  (thread_known w -> thread_known w').
Proof.
  cbn zeta. destruct (is_running (self w)) eqn:Hrun.
  { by rewrite start_running_noop. }
  unfold start, start_create, start_launch, start_commit. unfold_monad.
  rewrite Hrun. unfold thread_known.
  destruct (thread_ctor (start_spawn env)); simpl; [done |].
  destruct (thread_start (start_spawn env)); simpl; [by rewrite Hrun |].
  rewrite lookup_snoc. simpl.
  name_schedule Hr wb. simpl in *.
  repeat split; try done; try (intros Hc; by apply rely_service0);
    intros _ _; rewrite rely_listener_thread0; by eexists.
Qed.

Lemma stop_keeps env w :
  let w' := snd (stop env w) in
  primary_key (self w') = primary_key (self w) /\
  callback (self w') = callback (self w) /\
  listener_thread (self w') = listener_thread (self w) /\
  (service_consistent w -> service_consistent w') /\
  (thread_known w -> thread_known w').
Proof.
  cbn zeta. unfold stop. unfold_monad. unfold thread_known.
  destruct (is_running (self w)) eqn:Hrun; simpl; [| by rewrite Hrun].
  destruct (dbus_loop (self w)) as [l|], (loop_quit env) as [eq|]; simpl;
    try (by rewrite Hrun);
    destruct (listener_thread (self w)) as [t|] eqn:Ht; simpl;
    try change (is_alive (with_loops _ w) t) with (is_alive w t);
    try destruct (is_alive w t); simpl;
    try (by rewrite ?Ht);
    (destruct (thread_join env) as [ej|]; simpl; [by rewrite ?Ht, ?Hrun |]);
    name_schedule Hr wb; simpl in *;
    (repeat split; try done; try congruence; intros Hc; by apply rely_service0).
Qed.

Lemma set_callback_keeps cb w :
  let w' := snd (set_callback cb w) in
  callback (self w') = cb /\
  primary_key (self w') = primary_key (self w) /\
  is_running (self w') = is_running (self w) /\
  listener_thread (self w') = listener_thread (self w) /\
  dbus_service (self w') = dbus_service (self w) /\
  (service_consistent w -> service_consistent w').
Proof.
  cbn zeta. unfold set_callback, set_callback_propagate. unfold_monad. simpl.
  destruct (dbus_service (self w)) as [a|] eqn:Ha; simpl.
  - repeat split; try done.
    intros Hc a' Ha'. simpl in Ha'. rewrite Ha in Ha'. injection Ha' as <-.
    destruct (Hc a Ha) as (this & Hthis & _). simpl. rewrite Hthis.
    exists {| handler := cb |}. split; [| done].
    apply list_lookup_insert_eq. by eapply lookup_lt_Some.
  - repeat split; try done.
    intros _ a' Ha'. simpl in Ha'. congruence.
Qed.

Lemma update_shortcut_keeps k w :
  let w' := snd (update_shortcut k w) in
  (service_consistent w -> service_consistent w') /\
  (thread_known w -> thread_known w').
Proof. by split. Qed.

(** ** Invariants of every run *)

Lemma exec_keeps c w :
  (service_consistent w -> service_consistent (exec c w)) /\
  (thread_known w -> thread_known (exec c w)).
Proof.
  destruct c as [env|env|cb|k|l]; simpl.
  - pose proof (start_keeps env w) as H. cbn zeta in H. tauto.
  - pose proof (stop_keeps env w) as H. cbn zeta in H. tauto.
  - pose proof (set_callback_keeps cb w) as (_ & _ & Hr & Ht & _ & Hc).
    split; [done |]. unfold thread_known. by rewrite Hr, Ht.
  - apply update_shortcut_keeps.
  - destruct (rely_bg_step l w) as [_ _ Ht Hr _ Hc]. split; [done |].
    unfold thread_known. rewrite Ht. auto.
Qed.

Lemma reachable_service_consistent pk cb w :
  reachable pk cb w -> service_consistent w.
Proof.
  induction 1 as [|c w _ IH]; [by intros a [=] | by apply exec_keeps].
Qed.

Lemma reachable_thread_known pk cb w :
  reachable pk cb w -> thread_known w.
Proof.
  induction 1 as [|c w _ IH]; [by intros [=] | by apply exec_keeps].
Qed.

Lemma reachable_run pk cb cs w :
  reachable pk cb w -> reachable pk cb (run cs w).
Proof.
  revert w. induction cs as [|c cs IH]; intros w Hw; simpl; [done |].
  apply IH. by constructor.
Qed.

Lemma service_consistent_valid w : service_consistent w -> service_valid w.
Proof. intros Hc a Ha. destruct (Hc a Ha) as (this & -> & _). by eexists. Qed.

Lemma set_callback_racing_consistent cb sched w :
  service_valid w ->
  callback (self (snd (set_callback_racing cb sched w))) = cb /\
  service_consistent (snd (set_callback_racing cb sched w)).
Proof.
  intros Hv. unfold set_callback_racing, set_callback_propagate. unfold_monad.
  name_schedule Hr wb. simpl in *.
  assert (service_valid wb) as Hvb by (by apply rely_valid0).
  destruct (dbus_service (self wb)) as [a|] eqn:Ha; simpl.
  - split; [done |]. intros a' Ha'. simpl in Ha'. rewrite Ha in Ha'.
    injection Ha' as <-. simpl.
    destruct (Hvb a Ha) as [this Hthis]. rewrite Hthis.
    exists {| handler := cb |}. split; [| by rewrite rely_callback0].
    apply list_lookup_insert_eq. by eapply lookup_lt_Some.
  - split; [done |]. intros a' Ha'. simpl in Ha'. congruence.
Qed.


Lemma serving_reachable : reachable "<f12>" (Some 7) serving.
Proof. unfold serving, started. repeat apply reachable_run. constructor. Qed.


(** The bus holds the very object that [set_callback] updates: a trigger
    that arrives after the swap starts the new handler. *)
Example trigger_after_swap_runs_new_handler :
  threads (bus_trigger 0 spawn_ok (snd (set_callback (Some 9) serving)))
  = (threads serving ++ [callback_thread_of 9])%list.
Proof. reflexivity. Qed.

(** C10: in every state that a run of the process reaches from
    construction, a set running flag comes with a thread reference that
    is not [None], and [is_active()] evaluates to a boolean. *)
Theorem running_implies_thread pk cb w :
  reachable pk cb w ->
  (is_running (self w) = true -> listener_thread (self w) <> None) /\
  exists b, is_active w = VBool b.
Proof.
  intros Hreach.
  pose proof (reachable_thread_known _ _ _ Hreach) as Hk.
  split.
  - intros Hrun Hnone. destruct (Hk Hrun) as [t Ht]. congruence.
  - destruct (is_active_cases w) as [Hb | (_ & Hrun & Hnone)]; [done |].
    destruct (Hk Hrun) as [t Ht]. congruence.
Qed.

Lemma running_implies_thread_witness :
  reachable "<f12>" (Some 7) serving /\
  exists b, is_active serving = VBool b.
Proof.
  split; [exact serving_reachable |].
  apply (running_implies_thread "<f12>" (Some 7) serving serving_reachable).
Defined.

(** * Further properties of the code *)

(** ** stop and __del__ *)


Lemma stop_flag env w :
  (quit_raises env w = false -> join_raises env w = false ->
   is_running (self (snd (stop env w))) = false) /\
  (is_running (self (snd (stop env w))) = true -> is_running (self w) = true).
Proof.
  unfold quit_raises, join_raises, stop. unfold_monad.
  destruct (is_running (self w)) eqn:Hrun; simpl; [| by rewrite Hrun].
  destruct (dbus_loop (self w)) as [l|], (loop_quit env) as [eq|]; simpl;
    destruct (listener_thread (self w)) as [t|]; simpl;
    try change (is_alive (with_loops _ w) t) with (is_alive w t);
    try destruct (is_alive w t); simpl;
    destruct (thread_join env) as [ej|]; simpl;
    by repeat split.
Qed.

Lemma stop_stopped_noop env w :
  is_running (self w) = false -> stop env w = (Return tt, w).
Proof.
  intros Hrun. unfold stop, gets, mbind, M_bind. by rewrite Hrun.
Qed.

(** X1: [stop] on a controller that is not running changes nothing at all
    (no [quit()], no [join()], nothing printed); so after a [stop] that met
    no error, a second [stop] is a no-op whatever it would have met. *)
Theorem stop_idempotent env env' w :
  quit_raises env w = false ->
  join_raises env w = false ->
  stop env' (snd (stop env w)) = (Return tt, snd (stop env w)).
Proof.
  intros Hq Hj. apply stop_stopped_noop. by apply stop_flag.
Qed.

Lemma stop_idempotent_witness :
  let env := {| loop_quit := None; thread_join := None;
                during_join := [ThreadStep 0 None] |} in
  quit_raises env serving = false /\
  join_raises env serving = false /\
  stop env (snd (stop env serving)) = (Return tt, snd (stop env serving)).
Proof.
  cbn zeta. split; [reflexivity |]. split; [reflexivity |].
  apply (stop_idempotent _ _ serving); reflexivity.
Defined.


(** X3: after a [stop] that met no error, whatever the other threads did
    during the join, [is_active()] is [False] and the status mapping shows
    [is_running] and [is_active] both [False]. *)
Theorem stop_then_inactive env w :
  quit_raises env w = false ->
  join_raises env w = false ->
  let w' := snd (stop env w) in
  is_active w' = VBool false /\
  get_status w' !! "is_running" = Some (VBool false) /\
  get_status w' !! "is_active" = Some (VBool false).
Proof.
  intros Hq Hj. cbn zeta.
  pose proof (proj1 (stop_flag env w) Hq Hj) as Hflag.
  assert (is_active (snd (stop env w)) = VBool false) as Hact.
  { unfold is_active. by rewrite Hflag. }
  rewrite get_status_lookup_is_running, get_status_lookup_is_active.
  by rewrite Hflag, Hact.
Qed.

Lemma stop_then_inactive_witness :
  let env := {| loop_quit := None; thread_join := None; during_join := [] |} in
  quit_raises env serving = false /\
  join_raises env serving = false /\
  is_active (snd (stop env serving)) = VBool false.
Proof.
  cbn zeta. split; [reflexivity |]. split; [reflexivity |].
  apply (stop_then_inactive _ serving); reflexivity.
Defined.

(** X4: when the controller is running, has a loop and [quit()] raises,
    [stop] does not attempt the join and changes nothing but the output,
    to which it adds the error line. *)
Theorem stop_quit_error_only_logs env w l e :
  is_running (self w) = true ->
  dbus_loop (self w) = Some l ->
  loop_quit env = Some e ->
  stop env w
  = (Return tt,
     with_stdout
       (fun out => (out ++ ["Error stopping global shortcuts: " +:+ exn_msg e])%list) w).
Proof.
  intros Hrun Hl Hq. unfold stop. unfold_monad.
  rewrite Hrun. simpl. rewrite Hl. simpl. by rewrite Hq.
Qed.

Lemma stop_quit_error_only_logs_witness :
  let env := {| loop_quit := Some (RuntimeError "quit failed");
                thread_join := None; during_join := [ThreadStep 0 None] |} in
  is_running (self serving) = true /\
  dbus_loop (self serving) = Some 0 /\
  threads (snd (stop env serving)) = threads serving.
Proof.
  cbn zeta. split; [reflexivity |]. split; [reflexivity |].
  rewrite (stop_quit_error_only_logs _ serving 0 (RuntimeError "quit failed"));
    reflexivity.
Defined.

(** ** start when the thread cannot be created *)

(** X5: on a controller that is not running, when [Thread.start()]
    raises, [start] returns [False] and the flag stays false; the
    controller is left holding the new, never started thread object, which
    is not alive, so [is_active()] is [False]; no other thread ran, and the
    only output is the failure line. *)
Theorem start_launch_failure env w e :
  is_running (self w) = false ->
  thread_ctor (start_spawn env) = None ->
  thread_start (start_spawn env) = Some e ->
  let w' := snd (start env w) in
  fst (start env w) = Return false /\
  is_running (self w') = false /\
  listener_thread (self w') = Some (length (threads w)) /\
  threads w'
  = (threads w ++ [{| thr_target := target_dbus_loop_thread; thr_daemon := true;
                      thr_status := Unstarted |}])%list /\
  is_alive w' (length (threads w)) = false /\
  is_active w' = VBool false /\
  stdout w'
  = (stdout w ++ ["Failed to start global shortcuts: " +:+ exn_msg e])%list /\
  services w' = services w /\ bus_objects w' = bus_objects w.
Proof.
  intros Hrun Hc Hs. cbn zeta.
  unfold start, start_create, start_launch, is_active, is_alive. unfold_monad.
  rewrite Hrun, Hc. simpl. rewrite Hs. simpl. rewrite Hrun. simpl.
  rewrite lookup_snoc. by repeat split.
Qed.

Lemma start_launch_failure_witness :
  let env := {| start_spawn :=
                  {| thread_ctor := None;
                     thread_start := Some (RuntimeError "can't start new thread") |};
                during_start := [ThreadStep 0 None] |} in
  is_running (self fresh) = false /\
  fst (start env fresh) = Return false.
Proof.
  cbn zeta. split; [reflexivity |].
  apply (start_launch_failure _ fresh (RuntimeError "can't start new thread"));
    reflexivity.
Defined.

(** X6: on a controller that is not running, when the [Thread]
    constructor raises, [start] returns [False] and changes nothing but
    the output, to which it adds the failure line. *)
Theorem start_ctor_failure env w e :
  is_running (self w) = false ->
  thread_ctor (start_spawn env) = Some e ->
  start env w
  = (Return false,
     with_stdout
       (fun out => (out ++ ["Failed to start global shortcuts: " +:+ exn_msg e])%list) w).
Proof.
  intros Hrun Hc. unfold start, start_create. unfold_monad.
  rewrite Hrun, Hc. reflexivity.
Qed.

Lemma start_ctor_failure_witness :
  let env := {| start_spawn :=
                  {| thread_ctor := Some (RuntimeError "out of memory");
                     thread_start := None |};
                during_start := [] |} in
  is_running (self fresh) = false /\
  self (snd (start env fresh)) = self fresh.
Proof.
  cbn zeta. split; [reflexivity |].
  rewrite (start_ctor_failure _ fresh (RuntimeError "out of memory"));
    reflexivity.
Defined.

(** ** Trigger never touches the controller *)

(** X7: whatever the handler and however the thread creation turns out,
    [Trigger] leaves the controller, the service objects, the loops and the
    bus registrations as they were, keeps every existing thread object as it
    was, adds at most one thread object, and prints exactly its one line. *)
Theorem Trigger_frame this env w :
  let w' := snd (Trigger this env w) in
  self w' = self w /\
  services w' = services w /\
  loops w' = loops w /\
  bus_objects w' = bus_objects w /\
  take (length (threads w)) (threads w') = threads w /\
  length (threads w') <= S (length (threads w)) /\
  stdout w' = (stdout w ++ ["D-Bus trigger received"])%list.
Proof.
  cbn zeta. unfold Trigger. unfold_monad. simpl.
  destruct (handler this) as [h|]; simpl.
  - destruct (thread_ctor env); simpl.
    { rewrite firstn_all. repeat split; try done. lia. }
    destruct (thread_start env); simpl.
    { rewrite take_app_length. repeat split; try done.
      rewrite length_app. simpl. lia. }
    rewrite lookup_snoc. simpl. rewrite lookup_snoc, insert_snoc.
    rewrite take_app_length. repeat split; try done.
    rewrite length_app. simpl. lia.
  - rewrite firstn_all. repeat split; try done. lia.
Qed.

(** ** set_callback *)

(** X8: two [set_callback] calls in a row leave the process exactly as the
    second one alone would: the last handler wins, in the controller and in
    the service object. *)
Theorem set_callback_last_wins h1 h2 w :
  snd (set_callback h2 (snd (set_callback h1 w))) = snd (set_callback h2 w).
Proof.
  destruct w as [[pk cb svc lp lt running] ss ts ls bs out].
  unfold set_callback, set_callback_propagate. unfold_monad. simpl.
  destruct svc as [a|]; simpl; [| done].
  unfold with_services, with_self. simpl. f_equal.
  destruct (ss !! a) as [this|] eqn:Hthis.
  - rewrite list_lookup_insert_eq by (by eapply lookup_lt_Some).
    by rewrite list_insert_insert_eq.
  - by rewrite Hthis.
Qed.

(** X9: [set_callback(None)] unregisters the handler: afterwards a
    [Trigger] that the bus delivers to the controller's service starts no
    thread, however often it arrives. *)
Theorem set_callback_none_disables_trigger a env w :
  dbus_service (self w) = Some a ->
  let w' := snd (set_callback None w) in
  callback (self w') = None /\
  threads (bus_trigger a env w') = threads w /\
  self (bus_trigger a env w') = self w'.
Proof.
  intros Ha. cbn zeta.
  unfold set_callback, set_callback_propagate, bus_trigger. unfold_monad. simpl.
  rewrite Ha. simpl. split; [done |].
  case_bool_decide; [| done].
  destruct (services w !! a) as [this|] eqn:Hthis.
  - rewrite list_lookup_insert_eq by (by eapply lookup_lt_Some). done.
  - by rewrite Hthis.
Qed.

Lemma set_callback_none_disables_trigger_witness :
  dbus_service (self serving) = Some 0 /\
  threads (bus_trigger 0 spawn_ok (snd (set_callback None serving)))
  = threads serving.
Proof.
  split; [reflexivity |].
  apply (set_callback_none_disables_trigger 0 spawn_ok serving). reflexivity.
Defined.

(** ** The status mapping *)

(** X10: the status never shows an active controller that is not running:
    if [is_active] is [True] in the mapping then so is [is_running], and
    the listener thread is alive. *)
Theorem get_status_active_implies_running w :
  get_status w !! "is_active" = Some (VBool true) ->
  get_status w !! "is_running" = Some (VBool true) /\
  exists t, listener_thread (self w) = Some t /\ is_alive w t = true.
Proof.
  rewrite get_status_lookup_is_active, get_status_lookup_is_running.
  unfold is_active. intros [= Hact].
  destruct (is_running (self w)); simpl in Hact; [| done].
  destruct (listener_thread (self w)) as [t|]; [| done].
  injection Hact as Hact. split; [done |]. by exists t.
Qed.

Lemma get_status_active_implies_running_witness :
  get_status serving !! "is_active" = Some (VBool true) /\
  get_status serving !! "is_running" = Some (VBool true).
Proof.
  assert (get_status serving !! "is_active" = Some (VBool true)) as Hact.
  { by rewrite get_status_lookup_is_active. }
  split; [exact Hact |].
  apply (get_status_active_implies_running serving Hact).
Defined.

(** ** The listener thread, statement by statement *)

Lemma thread_step_at t o w th p :
  threads w !! t = Some th ->
  thr_status th = Alive p ->
  thread_step t o w
  = match _dbus_loop_thread p o w with
    | (Return (Some p'), w') => set_status t (Alive p') w'
    | (Return None, w') => set_status t Finished w'
    | (Raise e, w') =>
        if in_try p then set_status t (Alive (InExcept e)) w'
        else set_status t Finished w'
    end.
Proof. intros Ht Hp. unfold thread_step. by rewrite Ht, Hp. Qed.

Ltac listener_statement Ht Hlt :=
  match goal with
  | |- context [thread_step ?t ?o ?w] =>
      lazymatch w with
      | context [thread_step] => fail
      | _ =>
          erewrite (thread_step_at t o w);
          [| simpl; first [exact Ht | apply list_lookup_insert_eq; exact Hlt]
           | reflexivity ];
          unfold set_status, with_threads; simpl;
          rewrite ?Ht, ?list_lookup_insert_eq by exact Hlt; simpl;
          rewrite ?list_insert_insert_eq
      end
  end.

(** The world once a listener that starts at its first statement and meets
    no error blocks in [run()]. *)
Lemma listener_comes_up_world t th w :
  threads w !! t = Some th ->
  thr_status th = Alive AtConnect ->
  foldl (fun w l => bg_step l w) w (listener_comes_up t)
  = {| self := set_dbus_loop (Some (length (loops w)))
                 (set_dbus_service (Some (length (services w))) (self w));
       services := (services w ++ [{| handler := callback (self w) |}])%list;
       threads := <[t := at_status th (Alive (InRun (length (loops w))))]> (threads w);
       loops := (loops w ++ [true])%list;
       bus_objects := (bus_objects w ++ [length (services w)])%list;
       stdout := (stdout w ++
         ["D-Bus service started: com.hyprwhspr.Dictation at /com/hyprwhspr/Dictation"])%list |}.
Proof.
  intros Ht Hp.
  destruct w as [g ss ts ls bs out]. destruct th as [tg dm st].
  simpl in *. subst st.
  assert (t < length ts) as Hlt by (by eapply lookup_lt_Some).
  unfold listener_comes_up, at_status. simpl foldl.
  do 5 listener_statement Ht Hlt.
  erewrite (thread_step_at t None);
    [| simpl; apply list_lookup_insert_eq; exact Hlt | reflexivity].
  unfold _dbus_loop_thread. unfold_monad. simpl.
  unfold set_status, with_threads, with_loops. simpl.
  rewrite list_lookup_insert_eq by exact Hlt. simpl.
  by rewrite list_insert_insert_eq, insert_snoc.
Qed.

(** X11: a listener thread that meets no error creates a service bound to
    the handler the controller holds at that moment, makes it the
    controller's service, registers that same object on the bus, creates a
    loop, makes it the controller's loop, prints that the service started
    and blocks in [run()] of that loop, alive; it leaves the running flag,
    the handler and the thread reference alone. *)
Theorem listener_publishes_current_handler t th w :
  threads w !! t = Some th ->
  thr_status th = Alive AtConnect ->
  let w' := foldl (fun w l => bg_step l w) w (listener_comes_up t) in
  services w' = (services w ++ [{| handler := callback (self w) |}])%list /\
  dbus_service (self w') = Some (length (services w)) /\
  bus_objects w' = (bus_objects w ++ [length (services w)])%list /\
  dbus_loop (self w') = Some (length (loops w)) /\
  loops w' = (loops w ++ [true])%list /\
  threads w' = <[t := at_status th (Alive (InRun (length (loops w))))]> (threads w) /\
  is_alive w' t = true /\
  is_running (self w') = is_running (self w) /\
  callback (self w') = callback (self w) /\
  listener_thread (self w') = listener_thread (self w) /\
  stdout w' = (stdout w ++
    ["D-Bus service started: com.hyprwhspr.Dictation at /com/hyprwhspr/Dictation"])%list.
Proof.
  intros Ht Hp. cbn zeta. rewrite (listener_comes_up_world t th) by done.
  unfold is_alive. simpl.
  rewrite list_lookup_insert_eq by (by eapply lookup_lt_Some).
  by repeat split.
Qed.

Lemma listener_publishes_current_handler_witness :
  threads started !! 0
  = Some {| thr_target := target_dbus_loop_thread; thr_daemon := true;
            thr_status := Alive AtConnect |} /\
  services (foldl (fun w l => bg_step l w) started (listener_comes_up 0))
  = [{| handler := Some 7 |}].
Proof.
  split; [reflexivity |].
  apply (listener_publishes_current_handler 0
           {| thr_target := target_dbus_loop_thread; thr_daemon := true;
              thr_status := Alive AtConnect |} started); reflexivity.
Defined.

(** X12: when connecting to the bus, publishing or entering [run()]
    raises in the listener thread, its except clause prints the error,
    clears the running flag and the thread ends: afterwards the thread is
    not alive, [is_active()] is [False], and nothing was published or
    created by these two steps. *)
Theorem listener_failure_clears_flag t th p e o w :
  threads w !! t = Some th ->
  thr_status th = Alive p ->
  p = AtConnect \/ p = AtPublish \/ p = AtRun ->
  let w' := thread_step t o (thread_step t (Some e) w) in
  is_running (self w') = false /\
  threads w' = <[t := at_status th Finished]> (threads w) /\
  is_alive w' t = false /\
  is_active w' = VBool false /\
  stdout w' = (stdout w ++ ["Error in D-Bus loop: " +:+ exn_msg e])%list /\
  services w' = services w /\
  bus_objects w' = bus_objects w /\
  loops w' = loops w /\
  dbus_service (self w') = dbus_service (self w).
Proof.
  intros Ht Hp Hcases. cbn zeta.
  destruct w as [g ss ts ls bs out]. destruct th as [tg dm st].
  simpl in *. subst st.
  assert (t < length ts) as Hlt by (by eapply lookup_lt_Some).
  unfold at_status, is_active, is_alive.
  destruct Hcases as [-> | [-> | ->]];
    do 2 listener_statement Ht Hlt;
    rewrite list_lookup_insert_eq by exact Hlt; by repeat split.
Qed.

Lemma listener_failure_clears_flag_witness :
  threads started !! 0
  = Some {| thr_target := target_dbus_loop_thread; thr_daemon := true;
            thr_status := Alive AtConnect |} /\
  is_running
    (self (thread_step 0 None
             (thread_step 0 (Some (RuntimeError "no session bus")) started)))
  = false.
Proof.
  split; [reflexivity |].
  apply (listener_failure_clears_flag 0
           {| thr_target := target_dbus_loop_thread; thr_daemon := true;
              thr_status := Alive AtConnect |} AtConnect
           (RuntimeError "no session bus") None started);
    [reflexivity | reflexivity | by left].
Defined.

(** ** From start to the first trigger *)

Lemma run_background sched w :
  run (call_background <$> sched) w = foldl (fun w l => bg_step l w) w sched.
Proof.
  unfold run. revert w. induction sched as [|l sched IH]; intros w; simpl; [done |].
  apply IH.
Qed.

Lemma run_app cs1 cs2 w : run (cs1 ++ cs2) w = run cs2 (run cs1 w).
Proof. unfold run. apply foldl_app. Qed.

Lemma start_ok_world env w :
  is_running (self w) = false ->
  spawn_fails (start_spawn env) = false ->
  during_start env = [] ->
  snd (start env w)
  = {| self := set_is_running true
                 (set_listener_thread (Some (length (threads w))) (self w));
       services := services w;
       threads := (threads w ++
         [{| thr_target := target_dbus_loop_thread; thr_daemon := true;
             thr_status := Alive AtConnect |}])%list;
       loops := loops w;
       bus_objects := bus_objects w;
       stdout := (stdout w ++
         ["Global shortcuts started, listening for " +:+ primary_key (self w)
          +:+ " via D-Bus"])%list |}.
Proof.
  intros Hrun Hok Hsched.
  unfold start, start_create, start_launch, start_commit, spawn_fails in *.
  unfold_monad. rewrite Hrun, Hsched.
  destruct (thread_ctor (start_spawn env)); [done |].
  destruct (thread_start (start_spawn env)); [done |]. simpl.
  rewrite lookup_snoc. simpl. unfold set_status, with_threads. simpl.
  by rewrite lookup_snoc, insert_snoc.
Qed.

Lemma start_serve_trigger env h w :
  is_running (self w) = false ->
  callback (self w) = Some h ->
  spawn_fails (start_spawn env) = false ->
  during_start env = [] ->
  let w' :=
    run (call_start env ::
         (call_background <$> listener_comes_up (length (threads w))) ++
         [call_background (BusTrigger (length (services w)) spawn_ok)]) w in
  threads w'
  = (threads w ++
     [{| thr_target := target_dbus_loop_thread; thr_daemon := true;
         thr_status := Alive (InRun (length (loops w))) |};
      callback_thread_of h])%list /\
  is_active w' = VBool true /\
  services w' = (services w ++ [{| handler := Some h |}])%list.
Proof.
  intros Hrun Hcb Hok Hsched. cbn zeta.
  match goal with |- context [run ?cs w] => set (cs0 := cs) end.
  eassert (run cs0 w = _) as Hw.
  { subst cs0.
    change (run (call_start env :: ?cs) w) with (run cs (exec (call_start env) w)).
    rewrite run_app, run_background. simpl exec at 1.
    rewrite (start_ok_world env w) by done.
    erewrite listener_comes_up_world; [| apply lookup_snoc | reflexivity].
    unfold run, at_status. simpl. unfold bus_trigger. simpl.
    rewrite bool_decide_eq_true_2 by (apply elem_of_app; right; by left).
    rewrite lookup_snoc, insert_snoc, Hcb.
    rewrite (Trigger_spawned _ h) by done.
    unfold with_threads, with_stdout. simpl.
    rewrite <- app_assoc. simpl. reflexivity. }
  rewrite Hw. unfold is_active, is_alive. simpl.
  rewrite (list_lookup_middle (threads w) _ _ (length (threads w))) by done.
  done.
Qed.

(** X13: a handler registered with [set_callback] before [start] is the
    one a first trigger runs: after [set_callback(h)], a successful [start],
    a listener that comes up without error and one [Trigger] from the bus on
    the published service, the process has gained exactly two threads, the
    listener blocked in [run()] and a daemon thread running h, and
    [is_active()] is [True]. *)
Theorem callback_set_before_start_is_triggered env h w :
  is_running (self w) = false ->
  spawn_fails (start_spawn env) = false ->
  during_start env = [] ->
  let w' :=
    run (call_set_callback (Some h) :: call_start env ::
         (call_background <$> listener_comes_up (length (threads w))) ++
         [call_background (BusTrigger (length (services w)) spawn_ok)]) w in
  threads w'
  = (threads w ++
     [{| thr_target := target_dbus_loop_thread; thr_daemon := true;
         thr_status := Alive (InRun (length (loops w))) |};
      callback_thread_of h])%list /\
  is_active w' = VBool true /\
  services w' !! length (services w) = Some {| handler := Some h |}.
Proof.
  intros Hrun Hok Hsched. cbn zeta.
  change (run (call_set_callback (Some h) :: ?cs) w)
    with (run cs (exec (call_set_callback (Some h)) w)).
  set (w1 := exec (call_set_callback (Some h)) w).
  assert (threads w1 = threads w /\ loops w1 = loops w /\
          length (services w1) = length (services w) /\
          is_running (self w1) = false /\ callback (self w1) = Some h)
    as (Hts & Hls & Hss & Hrun1 & Hcb1).
  { subst w1. unfold exec, set_callback, set_callback_propagate. unfold_monad.
    simpl. destruct (dbus_service (self w)) as [a|]; simpl; [| done].
    repeat split; try done.
    destruct (services w !! a); [by rewrite length_insert | done]. }
  rewrite <- Hts, <- Hls, <- Hss.
  destruct (start_serve_trigger env h w1 Hrun1 Hcb1 Hok Hsched)
    as (Hthreads & Hactive & Hservices).
  split; [done |]. split; [done |].
  rewrite Hservices. apply lookup_snoc.
Qed.

Lemma callback_set_before_start_is_triggered_witness :
  let env := {| start_spawn := spawn_ok; during_start := [] |} in
  is_running (self fresh) = false /\
  is_active
    (run (call_set_callback (Some 9) :: call_start env ::
          (call_background <$> listener_comes_up 0) ++
          [call_background (BusTrigger 0 spawn_ok)]) fresh)
  = VBool true.
Proof.
  cbn zeta. split; [reflexivity |].
  apply (callback_set_before_start_is_triggered
           {| start_spawn := spawn_ok; during_start := [] |} 9 fresh);
    reflexivity.
Defined.

(** ** stop before the listener has a loop *)

(** X14: [stop] on a running controller whose listener has not created its
    loop yet cannot ask it to quit ([dbus_loop] is still [None], so
    [quit()] is skipped); if the listener comes up during the join, [stop]
    still clears the flag, and the controller reports not running and not
    active while the listener is alive, its service is registered on the
    bus and its loop runs. *)
Theorem stop_before_loop_leaves_listener env t th w :
  is_running (self w) = true ->
  dbus_loop (self w) = None ->
  listener_thread (self w) = Some t ->
  threads w !! t = Some th ->
  thr_status th = Alive AtConnect ->
  thread_join env = None ->
  during_join env = listener_comes_up t ->
  let w' := snd (stop env w) in
  fst (stop env w) = Return tt /\
  is_running (self w') = false /\
  is_active w' = VBool false /\
  is_alive w' t = true /\
  threads w' = <[t := at_status th (Alive (InRun (length (loops w))))]> (threads w) /\
  bus_objects w' = (bus_objects w ++ [length (services w)])%list /\
  loops w' = (loops w ++ [true])%list.
Proof.
  intros Hrun Hloop Hlt Ht Hp Hjoin Hsched. cbn zeta.
  assert (is_alive w t = true) as Halive.
  { unfold is_alive. by rewrite Ht, Hp. }
  pose proof (listener_comes_up_world t th w Ht Hp) as Hup.
  eassert (stop env w = _) as Hstop.
  { unfold stop. unfold_monad.
    rewrite Hrun. simpl. rewrite Hloop, Hlt. simpl.
    rewrite Halive, Hjoin. simpl. rewrite Hsched, Hup. reflexivity. }
  rewrite Hstop. unfold is_active, is_alive. simpl.
  rewrite list_lookup_insert_eq by (by eapply lookup_lt_Some).
  by repeat split.
Qed.

Lemma stop_before_loop_leaves_listener_witness :
  let env := {| loop_quit := None; thread_join := None;
                during_join := listener_comes_up 0 |} in
  is_running (self started) = true /\
  dbus_loop (self started) = None /\
  is_alive (snd (stop env started)) 0 = true.
Proof.
  cbn zeta. split; [reflexivity |]. split; [reflexivity |].
  apply (stop_before_loop_leaves_listener _ 0
           {| thr_target := target_dbus_loop_thread; thr_daemon := true;
              thr_status := Alive AtConnect |} started); reflexivity.
Defined.

(** ** The thread store *)

Lemma at_status_same th : at_status th (thr_status th) = th.
Proof. by destruct th. Qed.

Lemma at_status_twice th st st' : at_status (at_status th st) st' = at_status th st'.
Proof. done. Qed.

Lemma evolve_refl w : threads_evolve w w.
Proof.
  split; [| done]. intros t th Ht. exists (thr_status th).
  by rewrite at_status_same.
Qed.

Lemma evolve_trans w1 w2 w3 :
  threads_evolve w1 w2 -> threads_evolve w2 w3 -> threads_evolve w1 w3.
Proof.
  intros [H12 D12] [H23 D23]. split; [| auto].
  intros t th Ht. destruct (H12 t th Ht) as [st Hst].
  destruct (H23 t _ Hst) as [st' Hst']. exists st'.
  by rewrite Hst', at_status_twice.
Qed.

Lemma evolve_same_threads w w' : threads w' = threads w -> threads_evolve w w'.
Proof.
  intros Hts. unfold threads_evolve, all_daemon. rewrite Hts.
  apply evolve_refl.
Qed.

Lemma evolve_set_status t st w : threads_evolve w (set_status t st w).
Proof.
  unfold set_status. destruct (threads w !! t) as [th0|] eqn:Ht0.
  - split.
    + intros t' th Ht'. simpl. rewrite Ht0.
      destruct (decide (t = t')) as [<- | Hne].
      * exists st. rewrite list_lookup_insert_eq by (by eapply lookup_lt_Some).
        rewrite Ht0 in Ht'. by injection Ht' as ->.
      * exists (thr_status th). rewrite list_lookup_insert_ne by done.
        by rewrite at_status_same.
    + unfold all_daemon. simpl. rewrite Ht0. intros Hall.
      apply Forall_insert; [done |]. simpl.
      by eapply (Forall_lookup_1 _ _ _ _ Hall).
  - apply evolve_same_threads. simpl. by rewrite Ht0.
Qed.

Lemma evolve_snoc w w' th :
  threads w' = (threads w ++ [th])%list ->
  thr_daemon th = true ->
  threads_evolve w w'.
Proof.
  intros Hts Hd. split.
  - intros t th0 Ht. exists (thr_status th0).
    rewrite Hts, at_status_same. by apply lookup_app_l_Some.
  - unfold all_daemon. rewrite Hts. intros Hall.
    apply Forall_app_2; [done | by constructor].
Qed.

Lemma dbus_loop_thread_threads p o w :
  threads (snd (_dbus_loop_thread p o w)) = threads w.
Proof.
  destruct p; simpl; unfold_monad; simpl; try done.
  - by destruct o.
  - destruct o; [done |]. by destruct (dbus_service (self w)).
  - destruct o; [done |]. by destruct (dbus_loop (self w)).
  - destruct (loops w !! l) as [[|]|]; try done. by destruct o.
Qed.

Lemma evolve_thread_step t o w : threads_evolve w (thread_step t o w).
Proof.
  unfold thread_step.
  destruct (threads w !! t) as [th|]; [| apply evolve_refl].
  destruct (thr_status th) as [|p|]; try apply evolve_refl.
  pose proof (dbus_loop_thread_threads p o w) as Hts.
  destruct (_dbus_loop_thread p o w) as [[[p'|]|e] w']; simpl in Hts;
    try destruct (in_try p);
    (eapply evolve_trans;
     [apply evolve_same_threads; exact Hts | apply evolve_set_status]).
Qed.

Lemma evolve_Trigger this env w : threads_evolve w (snd (Trigger this env w)).
Proof.
  unfold Trigger. unfold_monad. simpl.
  destruct (handler this) as [h|]; [| by apply evolve_same_threads].
  destruct (thread_ctor env); [by apply evolve_same_threads |]. simpl.
  destruct (thread_start env); simpl.
  { by eapply evolve_snoc. }
  rewrite lookup_snoc. simpl.
  eapply evolve_trans; [| apply evolve_set_status].
  by eapply evolve_snoc.
Qed.

Lemma evolve_bg_step l w : threads_evolve w (bg_step l w).
Proof.
  destruct l as [t o | a env]; simpl; [apply evolve_thread_step |].
  unfold bus_trigger. case_bool_decide; [| apply evolve_refl].
  destruct (services w !! a); [apply evolve_Trigger | apply evolve_refl].
Qed.

Lemma evolve_schedule sched w :
  threads_evolve w (foldl (fun w l => bg_step l w) w sched).
Proof.
  revert w. induction sched as [|l sched IH]; intros w; simpl.
  - apply evolve_refl.
  - eapply evolve_trans; [apply evolve_bg_step | apply IH].
Qed.

Ltac name_schedule_threads He wb :=
  match goal with
  | |- context [foldl ?f ?x ?s] =>
      pose proof (evolve_schedule s x) as He;
      pose proof (rely_listener_thread _ _ (rely_schedule s x)) as Hlistener;
      change (foldl f x s) with (foldl (fun w l => bg_step l w) x s) in *;
      set (wb := foldl (fun w l => bg_step l w) x s) in *
  end.

Lemma start_threads env w :
  threads_evolve w (snd (start env w)) /\
  (listener_known w -> listener_known (snd (start env w))).
Proof.
  destruct (is_running (self w)) eqn:Hrun.
  { rewrite start_running_noop by done. split; [apply evolve_refl | done]. }
  unfold start, start_create, start_launch, start_commit. unfold_monad.
  rewrite Hrun.
  destruct (thread_ctor (start_spawn env)); simpl.
  { split; [by apply evolve_same_threads | done]. }
  destruct (thread_start (start_spawn env)); simpl.
  { split; [by eapply evolve_snoc |].
    intros _ t [= <-]. simpl. rewrite lookup_snoc. by eexists. }
  rewrite lookup_snoc. simpl.
  name_schedule_threads He wb. simpl in *.
  match type of He with
  | threads_evolve ?x _ =>
      assert (threads_evolve w x) as Hx
        by (eapply evolve_trans; [| apply evolve_set_status]; by eapply evolve_snoc);
      assert (exists th, threads x !! length (threads w) = Some th /\
                         thr_target th = target_dbus_loop_thread) as (th & Hth & Htg)
        by (unfold set_status; simpl; rewrite lookup_snoc, insert_snoc;
            rewrite lookup_snoc; by eexists)
  end.
  split.
  - eapply evolve_trans; [exact Hx |].
    eapply evolve_trans; [exact He |]. by apply evolve_same_threads.
  - intros _ t Ht. simpl in Ht. rewrite Hlistener in Ht. injection Ht as <-.
    simpl. destruct He as [He _]. destruct (He _ _ Hth) as [st Hst].
    rewrite Hst. by eexists.
Qed.

Lemma stop_threads env w : threads_evolve w (snd (stop env w)).
Proof.
  unfold stop. unfold_monad.
  destruct (is_running (self w)); simpl; [| apply evolve_refl].
  destruct (dbus_loop (self w)) as [l|], (loop_quit env) as [eq|]; simpl;
    try (by apply evolve_same_threads);
    destruct (listener_thread (self w)) as [t|]; simpl;
    try change (is_alive (with_loops _ w) t) with (is_alive w t);
    try destruct (is_alive w t); simpl;
    try (by apply evolve_same_threads);
    (destruct (thread_join env) as [ej|]; simpl;
     [by apply evolve_same_threads |]);
    name_schedule_threads He wb;
    (eapply evolve_trans; [| eapply evolve_trans; [exact He |]];
     by apply evolve_same_threads).
Qed.

Lemma set_callback_threads cb w : threads (snd (set_callback cb w)) = threads w.
Proof.
  unfold set_callback, set_callback_propagate. unfold_monad. simpl.
  by destruct (dbus_service (self w)).
Qed.

Lemma exec_threads c w :
  threads_evolve w (exec c w) /\
  (listener_known w -> listener_known (exec c w)).
Proof.
  assert (forall w', threads_evolve w w' ->
            listener_thread (self w') = listener_thread (self w) ->
            listener_known w -> listener_known w') as Hkeep.
  { intros w' [He _] Hlt Hk t Ht. rewrite Hlt in Ht.
    destruct (Hk t Ht) as (th & Hth & Htg).
    destruct (He t th Hth) as [st Hst]. rewrite Hst. by eexists. }
  destruct c as [env|env|cb|k|l]; simpl.
  - apply start_threads.
  - pose proof (stop_threads env w) as He. split; [done |].
    apply Hkeep; [done |]. apply stop_keeps.
  - pose proof (evolve_same_threads w _ (set_callback_threads cb w)) as He.
    split; [done |]. apply Hkeep; [done |]. apply set_callback_keeps.
  - split; [by apply evolve_same_threads |].
    by apply Hkeep; [apply evolve_same_threads |].
  - pose proof (evolve_bg_step l w) as He. split; [done |].
    apply Hkeep; [done |]. apply rely_bg_step.
Qed.

(** X15: in every state that a run of the process reaches, every thread
    object the module has created, listener or callback, is a daemon
    thread. *)
Theorem reachable_all_daemon pk cb w :
  reachable pk cb w -> all_daemon w.
Proof.
  induction 1 as [|c w _ IH]; [by constructor |].
  by apply (proj2 (proj1 (exec_threads c w))).
Qed.

Lemma reachable_all_daemon_witness :
  reachable "<f12>" (Some 7) (bus_trigger 0 spawn_ok serving) /\
  all_daemon (bus_trigger 0 spawn_ok serving).
Proof.
  assert (reachable "<f12>" (Some 7) (bus_trigger 0 spawn_ok serving)) as Hr.
  { apply (reachable_exec _ _ (call_background (BusTrigger 0 spawn_ok))).
    exact serving_reachable. }
  split; [exact Hr |].
  apply (reachable_all_daemon "<f12>" (Some 7) _ Hr).
Defined.

(** X16: in every state that a run of the process reaches, the
    controller's thread reference, when set, points at an existing thread
    object whose target is [_dbus_loop_thread]: [is_active()] never reports
    on a callback thread. *)
Theorem reachable_listener_known pk cb w :
  reachable pk cb w -> listener_known w.
Proof.
  induction 1 as [|c w _ IH]; [by intros t [=] |].
  by apply exec_threads.
Qed.

Lemma reachable_listener_known_witness :
  reachable "<f12>" (Some 7) serving /\ listener_known serving.
Proof.
  split; [exact serving_reachable |].
  apply (reachable_listener_known "<f12>" (Some 7) serving serving_reachable).
Defined.

(** ** Who changes what *)

(** X17: only [update_shortcut] changes the label, only [set_callback]
    changes the handler, only [start] changes the thread reference, and only
    [start] can turn the running flag on: every other call or background
    step leaves the flag cleared if it was cleared. *)
Theorem exec_frame c w :
  match c with
  | call_update_shortcut _ => True
  | _ => primary_key (self (exec c w)) = primary_key (self w)
  end /\
  match c with
  | call_set_callback _ => True
  | _ => callback (self (exec c w)) = callback (self w)
  end /\
  match c with
  | call_start _ => True
  | _ => listener_thread (self (exec c w)) = listener_thread (self w) /\
         (is_running (self w) = false -> is_running (self (exec c w)) = false)
  end.
Proof.
  destruct c as [env|env|cb|k|l]; simpl.
  - pose proof (start_keeps env w) as H. cbn zeta in H. tauto.
  - pose proof (stop_keeps env w) as (Hpk & Hcb & Hlt & _).
    pose proof (stop_stopped_noop env w) as Hnoop.
    repeat split; try done. intros Hrun. by rewrite Hnoop.
  - pose proof (set_callback_keeps cb w) as (_ & Hpk & Hrun & Hlt & _).
    repeat split; try done. intros Hr. by rewrite Hrun.
  - by repeat split.
  - destruct (rely_bg_step l w) as [Hpk Hcb Hlt Hrun _ _].
    repeat split; try done. intros Hr.
    destruct (is_running (self (bg_step l w))) eqn:Hafter; [| done].
    rewrite Hrun in Hr; done.
Qed.

(** ** Starting again *)

Lemma start_listener_ref env w :
  is_running (self w) = false ->
  spawn_fails (start_spawn env) = false ->
  listener_thread (self (snd (start env w))) = Some (length (threads w)) /\
  exists st,
    threads (snd (start env w)) !! length (threads w)
    = Some {| thr_target := target_dbus_loop_thread; thr_daemon := true;
              thr_status := st |}.
Proof.
  intros Hrun Hok.
  unfold start, start_create, start_launch, start_commit, spawn_fails in *.
  unfold_monad. rewrite Hrun.
  destruct (thread_ctor (start_spawn env)); [done |].
  destruct (thread_start (start_spawn env)); [done |]. simpl.
  rewrite lookup_snoc. simpl.
  name_schedule_threads He wb. simpl in *.
  split; [done |].
  destruct He as [He _].
  match type of He with
  | forall t th, threads ?x !! t = Some th -> _ =>
      assert (threads x !! length (threads w)
              = Some {| thr_target := target_dbus_loop_thread; thr_daemon := true;
                        thr_status := Alive AtConnect |}) as Hth
        by (unfold set_status; simpl; rewrite lookup_snoc, insert_snoc;
            by rewrite lookup_snoc)
  end.
  destruct (He _ _ Hth) as [st Hst]. exists st. by rewrite Hst.
Qed.

(** X18: a successful [start] on a controller that is not running always
    makes a new thread object the controller's listener: its reference was
    not in use before, the object is a daemon thread targeting
    [_dbus_loop_thread], and the objects that existed keep their place,
    target and daemon flag, whatever the other threads did meanwhile. *)
Theorem start_makes_fresh_listener env w :
  is_running (self w) = false ->
  spawn_fails (start_spawn env) = false ->
  let w' := snd (start env w) in
  let t := length (threads w) in
  listener_thread (self w') = Some t /\
  threads w !! t = None /\
  (exists st, threads w' !! t
     = Some {| thr_target := target_dbus_loop_thread; thr_daemon := true;
               thr_status := st |}) /\
  (forall t' th, threads w !! t' = Some th ->
     exists st, threads w' !! t' = Some (at_status th st)).
Proof.
  intros Hrun Hok. cbn zeta.
  destruct (start_listener_ref env w Hrun Hok) as (Hlt & Hth).
  split; [done |]. split; [by apply lookup_ge_None_2 |]. split; [done |].
  apply (proj1 (start_threads env w)).
Qed.

Lemma start_makes_fresh_listener_witness :
  let env := {| start_spawn := spawn_ok;
                during_start := listener_comes_up 0 |} in
  is_running (self fresh) = false /\
  listener_thread (self (snd (start env fresh))) = Some 0.
Proof.
  cbn zeta. split; [reflexivity |].
  apply (start_makes_fresh_listener
           {| start_spawn := spawn_ok; during_start := listener_comes_up 0 |}
           fresh); reflexivity.
Defined.

Lemma listener_failure_world t th p e o w :
  threads w !! t = Some th ->
  thr_status th = Alive p ->
  p = AtConnect \/ p = AtPublish \/ p = AtRun ->
  thread_step t o (thread_step t (Some e) w)
  = {| self := set_is_running false (self w);
       services := services w;
       threads := <[t := at_status th Finished]> (threads w);
       loops := loops w;
       bus_objects := bus_objects w;
       stdout := (stdout w ++ ["Error in D-Bus loop: " +:+ exn_msg e])%list |}.
Proof.
  intros Ht Hp Hcases.
  destruct w as [g ss ts ls bs out]. destruct th as [tg dm st].
  simpl in *. subst st.
  assert (t < length ts) as Hlt by (by eapply lookup_lt_Some).
  unfold at_status.
  destruct Hcases as [-> | [-> | ->]];
    do 2 listener_statement Ht Hlt; reflexivity.
Qed.

(** X19: the controller recovers from a failed listener: once the
    listener's except clause has cleared the flag, a new [start] whose thread
    creation succeeds returns [True], sets the flag again and replaces the
    thread reference by a new one, different from the failed thread's. *)
Theorem start_after_listener_failure t th p e o env w :
  threads w !! t = Some th ->
  thr_status th = Alive p ->
  p = AtConnect \/ p = AtPublish \/ p = AtRun ->
  spawn_fails (start_spawn env) = false ->
  let failed := thread_step t o (thread_step t (Some e) w) in
  let w' := snd (start env failed) in
  fst (start env failed) = Return true /\
  is_running (self w') = true /\
  listener_thread (self w') = Some (length (threads w)) /\
  listener_thread (self w') <> Some t.
Proof.
  intros Ht Hp Hcases Hok. cbn zeta.
  rewrite (listener_failure_world t th p e o w) by done.
  match goal with |- context [start env ?x] => set (failed := x) end.
  assert (is_running (self failed) = false) as Hrun by done.
  destruct (start_result env failed Hrun) as (Hret & Hflag).
  destruct (start_listener_ref env failed Hrun Hok) as (Hlt & _).
  rewrite Hret, Hflag, Hlt, Hok. subst failed. simpl.
  rewrite length_insert. repeat split.
  intros [= Heq]. apply lookup_lt_Some in Ht. lia.
Qed.

Lemma start_after_listener_failure_witness :
  let env := {| start_spawn := spawn_ok; during_start := [] |} in
  threads started !! 0
  = Some {| thr_target := target_dbus_loop_thread; thr_daemon := true;
            thr_status := Alive AtConnect |} /\
  fst (start env
         (thread_step 0 None
            (thread_step 0 (Some (RuntimeError "no session bus")) started)))
  = Return true.
Proof.
  cbn zeta. split; [reflexivity |].
  apply (start_after_listener_failure 0
           {| thr_target := target_dbus_loop_thread; thr_daemon := true;
              thr_status := Alive AtConnect |} AtConnect
           (RuntimeError "no session bus") None
           {| start_spawn := spawn_ok; during_start := [] |} started);
    [reflexivity | reflexivity | by left | reflexivity].
Defined.

(** ** set_callback and the service objects *)



(** X21: in every state that a run of the process reaches, [set_callback]
    ends with the controller's service holding the new handler even when
    other threads run between its two statements (the assignment of
    [self.callback] and the update of the service), for instance when the
    listener creates the service in between. *)
Theorem set_callback_survives_interleaving pk cb0 cb sched w :
  reachable pk cb0 w ->
  let w' := snd (set_callback_racing cb sched w) in
  callback (self w') = cb /\
  forall a, dbus_service (self w') = Some a ->
    services w' !! a = Some {| handler := cb |}.
Proof.
  intros Hreach. cbn zeta.
  pose proof (service_consistent_valid w
                (reachable_service_consistent _ _ _ Hreach)) as Hvalid.
  destruct (set_callback_racing_consistent cb sched w Hvalid) as (Hcb & Hc).
  split; [done |]. intros a Ha.
  destruct (Hc a Ha) as ([h] & Hthis & Hh). simpl in Hh.
  rewrite Hthis. by rewrite Hh, Hcb.
Qed.

Lemma set_callback_survives_interleaving_witness :
  reachable "<f12>" (Some 7) started /\
  services (snd (set_callback_racing (Some 9) (listener_comes_up 0) started)) !! 0
  = Some {| handler := Some 9 |}.
Proof.
  assert (reachable "<f12>" (Some 7) started) as Hr.
  { unfold started. apply reachable_run. constructor. }
  split; [exact Hr |].
  apply (proj2 (set_callback_survives_interleaving "<f12>" (Some 7) (Some 9)
                  (listener_comes_up 0) started Hr) 0).
  reflexivity.
Defined.

(** ** What stop keeps *)

(** X22: [stop] itself forgets nothing but the flag: when no other thread
    runs during the join, the label, the handler and the references to the
    thread, the loop and the service are as before, no thread, service or bus
    registration is removed or changed, and the flag is the only attribute
    that can differ. *)
Theorem stop_keeps_references env w :
  during_join env = [] ->
  let w' := snd (stop env w) in
  primary_key (self w') = primary_key (self w) /\
  callback (self w') = callback (self w) /\
  listener_thread (self w') = listener_thread (self w) /\
  dbus_loop (self w') = dbus_loop (self w) /\
  dbus_service (self w') = dbus_service (self w) /\
  threads w' = threads w /\
  services w' = services w /\
  bus_objects w' = bus_objects w.
Proof.
  intros Hsched. cbn zeta. unfold stop. unfold_monad. rewrite Hsched.
  destruct (is_running (self w)); simpl; [| by repeat split].
  destruct (dbus_loop (self w)) as [l|] eqn:Hl, (loop_quit env) as [eq|]; simpl;
    try (by repeat split);
    destruct (listener_thread (self w)) as [t|] eqn:Ht; simpl;
    try (by repeat split);
    try change (is_alive (with_loops _ w) t) with (is_alive w t);
    try destruct (is_alive w t); simpl; try (by repeat split);
    destruct (thread_join env) as [ej|]; simpl; by repeat split.
Qed.

Lemma stop_keeps_references_witness :
  let env := {| loop_quit := None; thread_join := None; during_join := [] |} in
  during_join env = [] /\
  dbus_service (self (snd (stop env serving))) = dbus_service (self serving).
Proof.
  cbn zeta. split; [reflexivity |].
  apply (stop_keeps_references
           {| loop_quit := None; thread_join := None; during_join := [] |} serving).
  reflexivity.
Defined.
